(** * SearchBar: the search input widget of web/src/components/search/SearchBar.tsx

    The component is a React function component with three props (the
    current query and two callbacks of its owner) and two event handlers,
    [handleChange] and [handleKeyDown], attached to one textarea.

    The handlers are imperative: they call the owner's callbacks, write the
    textarea's inline style, read its [scrollHeight] and call
    [preventDefault] on the keyboard event.  They are embedded in a small
    state monad over a [World] that holds the owner's state, the textarea
    the events point at, the cancellation flag of the event being
    dispatched, and the chronological trace of every effect performed. *)

From Stdlib Require Import String Ascii List ZArith Bool DecimalString.
From Stdlib Require Import DecimalPos DecimalZ Lia.
Import ListNotations.

Set Warnings "-register-all".


Open Scope string_scope.
Open Scope Z_scope.

(** ** The DOM objects the handlers touch *)

(** The part of an HTMLTextAreaElement the component reads or writes:
    [target.value] and [target.style.height].  The event's [target] is a
    reference to the element on the page, so a write through the event is a
    write to that element: the world below holds the one element. *)
Record HTMLTextAreaElement : Type := mkTextarea {
  value : string;
  style_height : string
}.

(** The part of a React KeyboardEvent the component reads. *)
Record KeyboardEvent : Type := mkKeyboardEvent {
  key : string;
  shiftKey : bool
}.

(** Everything a handler can do that is visible outside of it, in the
    order it is done. *)
Inductive effect : Type :=
| CallSetQuery (arg : string)      (* setQuery(arg) *)
| CallOnSearch                     (* onSearch() *)
| SetStyleHeight (h : string)      (* target.style.height = h *)
| ReadScrollHeight (result : Z)    (* target.scrollHeight, with what it gave *)
| CallPreventDefault.              (* event.preventDefault() *)

(** The layout engine of the host: the scroll height of the textarea as a
    function of the state of the element.  It is not code of the component;
    the handlers are parameterised by it. *)
Definition Layout : Type := HTMLTextAreaElement -> Z.

Section Component.

(** The state of the owner of the query (the parent component). *)
Context {Owner : Type}.

(** interface SearchBarProps *)
Record SearchBarProps : Type := mkProps {
  query : string;
  setQuery : string -> Owner -> Owner;
  onSearch : Owner -> Owner
}.

Record World : Type := mkWorld {
  owner : Owner;
  textarea : HTMLTextAreaElement;
  defaultPrevented : bool;
  trace : list effect
}.

(** ** The handler monad *)

Definition Handler (A : Type) : Type := World -> A * World.

Definition ret {A : Type} (a : A) : Handler A := fun w => (a, w).

Definition bind {A B : Type} (m : Handler A) (k : A -> Handler B) : Handler B :=
  fun w => let (a, w') := m w in k a w'.

Definition exec {A : Type} (m : Handler A) (w : World) : World := snd (m w).

Definition emit (e : effect) (w : World) : World :=
  mkWorld (owner w) (textarea w) (defaultPrevented w) (trace w ++ [e]).

End Component.

Arguments SearchBarProps : clear implicits.
Arguments World : clear implicits.
Arguments Handler : clear implicits.

Declare Scope handler_scope.
Delimit Scope handler_scope with handler.
Notation "x <- m ;; k" := (bind m (fun x => k))
  (at level 61, m at next level, right associativity) : handler_scope.
Notation "m ;; k" := (bind m (fun _ => k))
  (at level 61, right associativity) : handler_scope.

(** `${n}px` for an integer [n]: JavaScript prints an integer in decimal,
    with a minus sign when it is negative. *)
Definition px (n : Z) : string := NilZero.string_of_int (Z.to_int n) ++ "px".

Section Handlers.

Context {Owner : Type}.
Variable props : SearchBarProps Owner.
Variable scrollHeight : Layout.

(** *** Primitive operations *)

(** target.value *)
Definition target_value : Handler Owner string :=
  fun w => (value (textarea w), w).

(** setQuery(s): the call is recorded and the owner's callback runs. *)
Definition call_setQuery (s : string) : Handler Owner unit :=
  fun w =>
    (tt, emit (CallSetQuery s)
           (mkWorld (setQuery props s (owner w)) (textarea w)
                    (defaultPrevented w) (trace w))).

(** onSearch() *)
Definition call_onSearch : Handler Owner unit :=
  fun w =>
    (tt, emit CallOnSearch
           (mkWorld (onSearch props (owner w)) (textarea w)
                    (defaultPrevented w) (trace w))).

(** target.style.height = h *)
Definition set_style_height (h : string) : Handler Owner unit :=
  fun w =>
    (tt, emit (SetStyleHeight h)
           (mkWorld (owner w) (mkTextarea (value (textarea w)) h)
                    (defaultPrevented w) (trace w))).

(** target.scrollHeight *)
Definition target_scrollHeight : Handler Owner Z :=
  fun w => let n := scrollHeight (textarea w) in (n, emit (ReadScrollHeight n) w).

(** event.preventDefault() *)
Definition preventDefault : Handler Owner unit :=
  fun w =>
    (tt, emit CallPreventDefault
           (mkWorld (owner w) (textarea w) true (trace w))).

(** *** The two handlers of the component *)

Open Scope handler_scope.

Definition handleChange : Handler Owner unit :=
  v <- target_value ;;
  call_setQuery v ;;
  (* Resize the textarea to fit the content *)
  set_style_height "24px" ;;
  newHeight <- target_scrollHeight ;;
  set_style_height (px newHeight).

Definition handleKeyDown (event : KeyboardEvent) : Handler Owner unit :=
  if (key event =? "Enter")%string && negb (shiftKey event) then
    call_onSearch ;;
    preventDefault
  else
    ret tt.

Close Scope handler_scope.

End Handlers.

(** ** Rendering *)

(** The attributes of the <textarea> element of the component. *)
Record TextareaAttrs (Owner : Type) : Type := mkTextareaAttrs {
  ta_className : string;
  ta_role : string;
  ta_ariaMultiline : bool;
  ta_placeholder : string;
  ta_value : string;
  ta_onChange : Handler Owner unit;
  ta_onKeyDown : KeyboardEvent -> Handler Owner unit;
  ta_suppressContentEditableWarning : bool
}.

Arguments mkTextareaAttrs {Owner}.
Arguments ta_className {Owner}.
Arguments ta_role {Owner}.
Arguments ta_ariaMultiline {Owner}.
Arguments ta_placeholder {Owner}.
Arguments ta_value {Owner}.
Arguments ta_onChange {Owner}.
Arguments ta_onKeyDown {Owner}.
Arguments ta_suppressContentEditableWarning {Owner}.

(** The elements the component returns. *)
Inductive Element (Owner : Type) : Type :=
| Div (className : string) (children : list (Element Owner))
| MagnifyingGlass (className : string)
| Textarea (attrs : TextareaAttrs Owner).

Arguments Div {Owner}.
Arguments MagnifyingGlass {Owner}.
Arguments Textarea {Owner}.

(** The component: a function of its props alone.  It calls no state hook
    (the source imports useState and never uses it), so there is no other
    argument. *)
Definition SearchBar {Owner : Type} (scrollHeight : Layout)
    (props : SearchBarProps Owner) : Element Owner :=
  Div "flex justify-center py-3"
    [ Div "flex items-center w-full border-2 border-gray-600 rounded px-4 py-2 focus-within:border-blue-500"
        [ MagnifyingGlass "text-gray-400";
          Textarea
            (mkTextareaAttrs
               "flex-grow ml-2 h-6 bg-transparent outline-none placeholder-gray-400 overflow-hidden whitespace-normal resize-none"
               "textarea"
               true
               "Search..."
               (query props)
               (handleChange props scrollHeight)
               (handleKeyDown props)
               true) ] ].

(** The texts an element tree displays in its textareas, left to right. *)
Fixpoint displayed {Owner : Type} (e : Element Owner) : list string :=
  match e with
  | Div _ children => flat_map displayed children
  | MagnifyingGlass _ => []
  | Textarea attrs => [ta_value attrs]
  end.

(** The textarea attributes of an element tree, left to right. *)
Fixpoint textareas {Owner : Type} (e : Element Owner) : list (TextareaAttrs Owner) :=
  match e with
  | Div _ children => flat_map textareas children
  | MagnifyingGlass _ => []
  | Textarea attrs => [attrs]
  end.

(** ** Observations on a trace *)

Definition is_setQuery (e : effect) : bool :=
  match e with CallSetQuery _ => true | _ => false end.

Definition is_onSearch (e : effect) : bool :=
  match e with CallOnSearch => true | _ => false end.

Definition is_preventDefault (e : effect) : bool :=
  match e with CallPreventDefault => true | _ => false end.

(** The operations on the input surface: writes of its height and
    measurements of its content. *)
Definition is_surface_op (e : effect) : bool :=
  match e with SetStyleHeight _ | ReadScrollHeight _ => true | _ => false end.

(** The arguments of the calls of setQuery, in order. *)
Fixpoint setQuery_args (tr : list effect) : list string :=
  match tr with
  | [] => []
  | CallSetQuery s :: tr' => s :: setQuery_args tr'
  | _ :: tr' => setQuery_args tr'
  end.

(** How many times onSearch was called. *)
Definition count_onSearch (tr : list effect) : nat :=
  length (filter is_onSearch tr).

Definition surface_ops (tr : list effect) : list effect :=
  filter is_surface_op tr.

(** [precedes a b tr]: in [tr] no event of kind [b] is followed by an event
    of kind [a], that is, every [a] happens before every [b]. *)
Fixpoint precedes (a b : effect -> bool) (tr : list effect) : bool :=
  match tr with
  | [] => true
  | e :: tr' =>
      (if b e then negb (existsb a tr') else true) && precedes a b tr'
  end.

(** ** The host around the handlers *)

Section Host.

Context {Owner : Type}.
Variable props : SearchBarProps Owner.
Variable scrollHeight : Layout.

(** What the browser does to the textarea on a key-down that no handler
    cancelled (for Enter: insert a line break at the caret).  Not code of
    the component. *)
Variable defaultAction : KeyboardEvent -> HTMLTextAreaElement -> HTMLTextAreaElement.

(** An input event: the browser has put the edited content [s] into the
    textarea, then the onChange handler runs on that element. *)
Definition dispatchChange (s : string) (w : World Owner) : World Owner :=
  exec (handleChange props scrollHeight)
    (mkWorld (owner w) (mkTextarea s (style_height (textarea w)))
             (defaultPrevented w) (trace w)).

(** A key-down event: a fresh event (not cancelled) goes to the onKeyDown
    handler; the default action follows unless the handler cancelled it. *)
Definition dispatchKeyDown (event : KeyboardEvent) (w : World Owner) : World Owner :=
  let w' := exec (handleKeyDown props event)
              (mkWorld (owner w) (textarea w) false (trace w)) in
  if defaultPrevented w' then w'
  else mkWorld (owner w') (defaultAction event (textarea w'))
               (defaultPrevented w') (trace w').

End Host.

(** ** A concrete host, for running the handlers *)

Module Sample.

(** The owner keeps the query and counts the searches it was asked for. *)
Definition owner_state : Type := string * nat.

Definition props (q : string) : SearchBarProps owner_state :=
  mkProps q (fun s o => (s, snd o)) (fun o => (fst o, S (snd o))).

Definition newline : string := String (ascii_of_nat 10) "".

(** Number of lines of a text: one more than its line breaks. *)
Fixpoint lines (s : string) : Z :=
  match s with
  | EmptyString => 1
  | String c s' => (if Ascii.eqb c (ascii_of_nat 10) then 1 else 0) + lines s'
  end.

Definition digit_of (c : ascii) : option Z :=
  let n := Z.of_nat (nat_of_ascii c) in
  if (48 <=? n) && (n <=? 57) then Some (n - 48) else None.

(** The number a CSS length such as "24px" starts with (0 when none). *)
Fixpoint leading_number (acc : Z) (s : string) : Z :=
  match s with
  | EmptyString => acc
  | String c s' =>
      match digit_of c with
      | Some d => leading_number (10 * acc + d) s'
      | None => acc
      end
  end.

(** A layout with lines of 24 units: the scroll height is the height of
    the content, and never less than the height the element is given. *)
Definition layout : Layout :=
  fun el => Z.max (24 * lines (value el)) (leading_number 0 (style_height el)).

(** Enter breaks the line (caret at the end); other keys are not modelled. *)
Definition defaultAction (event : KeyboardEvent) (el : HTMLTextAreaElement)
    : HTMLTextAreaElement :=
  if (key event =? "Enter")%string
  then mkTextarea (value el ++ newline) (style_height el)
  else el.

Definition world (s h : string) : World owner_state :=
  mkWorld (""%string, 0%nat) (mkTextarea s h) false [].

(** An owner that shows the query it keeps and adopts what setQuery gives. *)
Definition adopting (o : owner_state) : SearchBarProps owner_state :=
  props (fst o).

(** An owner that shows the query it keeps and ignores setQuery. *)
Definition deaf (o : owner_state) : SearchBarProps owner_state :=
  mkProps (fst o) (fun _ o' => o') (fun o' => (fst o', S (snd o'))).

End Sample.

(** The effects performed between two worlds of one run: what the trace
    of the later one has after the trace of the earlier one. *)
Definition effects_since {Owner : Type} (w w' : World Owner) : list effect :=
  skipn (length (trace w)) (trace w').

(** The effects a handler performs when it runs in [w]. *)
Definition performed {Owner A : Type} (m : Handler Owner A) (w : World Owner)
    : list effect :=
  effects_since w (exec m w).

(** The results of the measurements of the scroll height, in order. *)
Fixpoint measurements (tr : list effect) : list Z :=
  match tr with
  | [] => []
  | ReadScrollHeight n :: tr' => n :: measurements tr'
  | _ :: tr' => measurements tr'
  end.

(** The height the handler measures for a content: the scroll height of
    the element holding it once its height is back at the baseline. *)
Definition measured (scrollHeight : Layout) (s : string) : Z :=
  scrollHeight (mkTextarea s "24px").

(** ** Sequences of events *)

(** What reaches the component: an input event, after the host has put the
    edited content into the textarea, or a key-down event. *)
Inductive operation : Type :=
| Input (content : string)
| KeyDown (event : KeyboardEvent).

(** The handler the rendered textarea has for each of them: onChange is
    handleChange and onKeyDown is handleKeyDown.  Every key-down is an
    event of its own, not cancelled when it reaches its handler.  What the
    default action of a key-down edits in the text reaches the component as
    the input event that follows it, an [Input] of its own. *)
Definition step {Owner : Type} (scrollHeight : Layout)
    (props : SearchBarProps Owner) (op : operation) (w : World Owner)
    : World Owner :=
  match op with
  | Input s => dispatchChange props scrollHeight s w
  | KeyDown event =>
      exec (handleKeyDown props event)
        (mkWorld (owner w) (textarea w) false (trace w))
  end.

(** The handler runs of a sequence of events, one after the other, each
    under the props the component had for it.  Nothing of what React does
    between two events is in it: it tells what the handlers call and
    perform, not what the page shows; for that see [session]. *)
Fixpoint run {Owner : Type} (scrollHeight : Layout)
    (steps : list (SearchBarProps Owner * operation)) (w : World Owner)
    : World Owner :=
  match steps with
  | [] => w
  | (props, op) :: steps' => run scrollHeight steps' (step scrollHeight props op w)
  end.

(** The contents the input events of a sequence reported, in order. *)
Fixpoint contents (ops : list operation) : list string :=
  match ops with
  | [] => []
  | Input s :: ops' => s :: contents ops'
  | KeyDown _ :: ops' => contents ops'
  end.

(** *** Sessions: the events with React around them *)

(** React commits a render of the component: the textarea of the page is
    controlled, so it gets the value the rendered element gives it.  The
    element sets no style, so the height written by handleChange stays. *)
Definition commit {Owner : Type} (e : Element Owner) (w : World Owner)
    : World Owner :=
  match displayed e with
  | v :: _ =>
      mkWorld (owner w) (mkTextarea v (style_height (textarea w)))
              (defaultPrevented w) (trace w)
  | [] => w
  end.

(** One event in a page whose owner renders the component with the props
    [render_props] gives for its state: the handler of the current render
    runs, then React renders the component for the state the owner is in
    now and commits it. *)
Definition cycle {Owner : Type} (scrollHeight : Layout)
    (render_props : Owner -> SearchBarProps Owner) (op : operation)
    (w : World Owner) : World Owner :=
  let w1 := step scrollHeight (render_props (owner w)) op w in
  commit (SearchBar scrollHeight (render_props (owner w1))) w1.

Fixpoint session {Owner : Type} (scrollHeight : Layout)
    (render_props : Owner -> SearchBarProps Owner) (ops : list operation)
    (w : World Owner) : World Owner :=
  match ops with
  | [] => w
  | op :: ops' =>
      session scrollHeight render_props ops'
        (cycle scrollHeight render_props op w)
  end.

(** ** What a run of events should amount to *)

(** The test of handleKeyDown: the key is "Enter" and shift is not held. *)
Definition submits (event : KeyboardEvent) : bool :=
  (key event =? "Enter")%string && negb (shiftKey event).

(** The calls of the owner's callbacks among the effects. *)
Definition is_callback (e : effect) : bool :=
  match e with CallSetQuery _ | CallOnSearch => true | _ => false end.

(** The callback calls a sequence of events asks for: the content of each
    input event to setQuery, one onSearch for each Enter without shift. *)
Fixpoint calls_of {Owner : Type} (steps : list (SearchBarProps Owner * operation))
    : list effect :=
  match steps with
  | [] => []
  | (_, Input s) :: steps' => CallSetQuery s :: calls_of steps'
  | (_, KeyDown event) :: steps' =>
      if submits event then CallOnSearch :: calls_of steps' else calls_of steps'
  end.

(** The number of key-down events of a sequence that are Enter without shift. *)
Fixpoint submissions {Owner : Type} (steps : list (SearchBarProps Owner * operation))
    : nat :=
  match steps with
  | [] => 0%nat
  | (_, Input _) :: steps' => submissions steps'
  | (_, KeyDown event) :: steps' =>
      if submits event then S (submissions steps') else submissions steps'
  end.

(** The owner's state after its callbacks have been applied in the order of
    the events, each with the props of its event. *)
Fixpoint owner_after {Owner : Type} (steps : list (SearchBarProps Owner * operation))
    (o : Owner) : Owner :=
  match steps with
  | [] => o
  | (props, Input s) :: steps' => owner_after steps' (setQuery props s o)
  | (props, KeyDown event) :: steps' =>
      owner_after steps' (if submits event then onSearch props o else o)
  end.

(** [cancel_follows_search tr]: in [tr] every call of onSearch is followed
    at once by a call of preventDefault, and there is no other call of
    preventDefault. *)
Fixpoint cancel_follows_search (tr : list effect) : bool :=
  match tr with
  | [] => true
  | CallOnSearch :: tr' =>
      match tr' with
      | CallPreventDefault :: tr'' => cancel_follows_search tr''
      | _ => false
      end
  | CallPreventDefault :: _ => false
  | _ :: tr' => cancel_follows_search tr'
  end.

(** * Properties *)

(** ** What a run of each handler does *)

Lemma skipn_length_app {A : Type} (l r : list A) :
  skipn (length l) (l ++ r) = r.
Proof.
  induction l as [|x l IH]; simpl; [reflexivity | exact IH].
Qed.

Section Runs.

Context {Owner : Type}.
Variable props : SearchBarProps Owner.
Variable scrollHeight : Layout.

Lemma handleChange_exec (w : World Owner) :
  exec (handleChange props scrollHeight) w =
  let v := value (textarea w) in
  mkWorld (setQuery props v (owner w))
          (mkTextarea v (px (measured scrollHeight v)))
          (defaultPrevented w)
          (trace w ++ [CallSetQuery v; SetStyleHeight "24px";
                       ReadScrollHeight (measured scrollHeight v);
                       SetStyleHeight (px (measured scrollHeight v))]).
Proof.
  destruct w as [o [v h] dp tr].
  unfold exec, handleChange, bind, target_value, call_setQuery,
    set_style_height, target_scrollHeight, emit, measured; simpl.
  repeat rewrite <- app_assoc. reflexivity.
Qed.

Lemma handleChange_performed (w : World Owner) :
  performed (handleChange props scrollHeight) w =
  let v := value (textarea w) in
  [CallSetQuery v; SetStyleHeight "24px";
   ReadScrollHeight (measured scrollHeight v); SetStyleHeight (px (measured scrollHeight v))].
Proof.
  unfold performed, effects_since. rewrite handleChange_exec. simpl.
  apply skipn_length_app.
Qed.

Lemma handleKeyDown_submit (event : KeyboardEvent) (w : World Owner) :
  key event = "Enter" -> shiftKey event = false ->
  exec (handleKeyDown props event) w =
  mkWorld (onSearch props (owner w)) (textarea w) true
          (trace w ++ [CallOnSearch; CallPreventDefault]).
Proof.
  intros Hk Hs. unfold handleKeyDown. rewrite Hk, Hs. simpl.
  unfold exec, bind, call_onSearch, preventDefault, emit; simpl.
  rewrite <- app_assoc. reflexivity.
Qed.

Lemma handleKeyDown_idle (event : KeyboardEvent) (w : World Owner) :
  ((key event =? "Enter")%string && negb (shiftKey event) = false)%bool ->
  exec (handleKeyDown props event) w = w.
Proof.
  intros Hc. unfold handleKeyDown. rewrite Hc. reflexivity.
Qed.

Lemma performed_nothing {A : Type} (m : Handler Owner A) (w : World Owner) :
  exec m w = w -> performed m w = [].
Proof.
  intros E. unfold performed, effects_since. rewrite E.
  rewrite <- (app_nil_r (trace w)) at 2. apply skipn_length_app.
Qed.

Lemma handleKeyDown_performed (event : KeyboardEvent) (w : World Owner) :
  performed (handleKeyDown props event) w =
  if ((key event =? "Enter")%string && negb (shiftKey event))%bool
  then [CallOnSearch; CallPreventDefault] else [].
Proof.
  destruct ((key event =? "Enter")%string && negb (shiftKey event))%bool eqn:Hc.
  - apply andb_true_iff in Hc as [Hk Hs].
    apply String.eqb_eq in Hk. apply negb_true_iff in Hs.
    unfold performed, effects_since.
    rewrite (handleKeyDown_submit event w Hk Hs). simpl.
    apply skipn_length_app.
  - apply performed_nothing, handleKeyDown_idle, Hc.
Qed.

Lemma dispatchChange_exec (s : string) (w : World Owner) :
  dispatchChange props scrollHeight s w =
  mkWorld (setQuery props s (owner w))
          (mkTextarea s (px (measured scrollHeight s)))
          (defaultPrevented w)
          (trace w ++ [CallSetQuery s; SetStyleHeight "24px";
                       ReadScrollHeight (measured scrollHeight s);
                       SetStyleHeight (px (measured scrollHeight s))]).
Proof.
  unfold dispatchChange. rewrite handleChange_exec. reflexivity.
Qed.

End Runs.

(** ** Events, cycles and sessions *)

Lemma last_cons_default {A : Type} (x d : A) (l : list A) :
  last (x :: l) d = last l x.
Proof.
  revert x d. induction l as [|y l IH]; intros x d; [reflexivity|].
  change (last (x :: y :: l) d) with (last (y :: l) d).
  rewrite (IH y d), (IH y x). reflexivity.
Qed.

Lemma step_exec {Owner : Type} (scrollHeight : Layout)
    (props : SearchBarProps Owner) (op : operation) (w : World Owner) :
  step scrollHeight props op w =
  match op with
  | Input s =>
      mkWorld (setQuery props s (owner w))
              (mkTextarea s (px (measured scrollHeight s)))
              (defaultPrevented w)
              (trace w ++ [CallSetQuery s; SetStyleHeight "24px";
                           ReadScrollHeight (measured scrollHeight s);
                           SetStyleHeight (px (measured scrollHeight s))])
  | KeyDown event =>
      if submits event
      then mkWorld (onSearch props (owner w)) (textarea w) true
                   (trace w ++ [CallOnSearch; CallPreventDefault])
      else mkWorld (owner w) (textarea w) false (trace w)
  end.
Proof.
  destruct op as [s|event]; unfold step.
  - apply dispatchChange_exec.
  - destruct (submits event) eqn:Hc.
    + unfold submits in Hc. apply andb_true_iff in Hc as [Hk Hs].
      apply String.eqb_eq in Hk. apply negb_true_iff in Hs.
      rewrite (handleKeyDown_submit props event _ Hk Hs). reflexivity.
    + apply handleKeyDown_idle. exact Hc.
Qed.

Lemma cycle_exec {Owner : Type} (scrollHeight : Layout)
    (render_props : Owner -> SearchBarProps Owner) (op : operation)
    (w : World Owner) :
  cycle scrollHeight render_props op w =
  let props := render_props (owner w) in
  match op with
  | Input s =>
      let o := setQuery props s (owner w) in
      mkWorld o
              (mkTextarea (query (render_props o)) (px (measured scrollHeight s)))
              (defaultPrevented w)
              (trace w ++ [CallSetQuery s; SetStyleHeight "24px";
                           ReadScrollHeight (measured scrollHeight s);
                           SetStyleHeight (px (measured scrollHeight s))])
  | KeyDown event =>
      if submits event
      then let o := onSearch props (owner w) in
           mkWorld o
                   (mkTextarea (query (render_props o)) (style_height (textarea w)))
                   true
                   (trace w ++ [CallOnSearch; CallPreventDefault])
      else mkWorld (owner w)
                   (mkTextarea (query (render_props (owner w)))
                               (style_height (textarea w)))
                   false (trace w)
  end.
Proof.
  unfold cycle. rewrite step_exec.
  destruct op as [s|event]; [reflexivity|].
  destruct (submits event); reflexivity.
Qed.

Lemma session_shows_query {Owner : Type} (scrollHeight : Layout)
    (render_props : Owner -> SearchBarProps Owner) (ops : list operation) :
  forall w : World Owner,
    value (textarea w) = query (render_props (owner w)) ->
    value (textarea (session scrollHeight render_props ops w))
    = query (render_props (owner (session scrollHeight render_props ops w))).
Proof.
  induction ops as [|op ops IH]; intros w Hw; [exact Hw|].
  simpl session. apply IH. rewrite cycle_exec.
  destruct op as [s|event]; [reflexivity|].
  simpl. destruct (submits event); reflexivity.
Qed.

Lemma session_requests {Owner : Type} (scrollHeight : Layout)
    (render_props : Owner -> SearchBarProps Owner) (ops : list operation) :
  forall w : World Owner,
  exists E : list effect,
    trace (session scrollHeight render_props ops w) = (trace w ++ E)%list
    /\ setQuery_args E = contents ops.
Proof.
  induction ops as [|op ops IH]; intros w.
  - exists []. rewrite app_nil_r. split; reflexivity.
  - simpl session.
    destruct (IH (cycle scrollHeight render_props op w)) as (E & Ht & Ha).
    rewrite Ht, cycle_exec. clear Ht.
    destruct op as [s|event]; [|simpl; destruct (submits event)].
    + eexists. cbn [trace]. rewrite <- app_assoc. split; [reflexivity|].
      simpl. rewrite Ha. reflexivity.
    + eexists. cbn [trace]. rewrite <- app_assoc. split; [reflexivity|].
      simpl. exact Ha.
    + exists E. split; [reflexivity | exact Ha].
Qed.

Lemma session_height {Owner : Type} (scrollHeight : Layout)
    (render_props : Owner -> SearchBarProps Owner) (ops : list operation) :
  forall w : World Owner,
    style_height (textarea (session scrollHeight render_props ops w)) =
    match contents ops with
    | [] => style_height (textarea w)
    | s0 :: rest => px (measured scrollHeight (last rest s0))
    end.
Proof.
  induction ops as [|op ops IH]; intros w; [reflexivity|].
  simpl session. rewrite IH, cycle_exec.
  destruct op as [s|event]; simpl.
  - destruct (contents ops) as [|s0 rest]; [reflexivity|].
    rewrite last_cons_default. reflexivity.
  - destruct (submits event); reflexivity.
Qed.

(** ** Key-down handling *)

(** C1.  A key-down event with key "Enter" and no shift makes handleKeyDown
    call onSearch exactly once (the owner sees one application of its
    callback), and cancel the event: the cancellation flag is set, one
    preventDefault is performed, and after the dispatch the textarea is what
    it was, whatever the default action of the host would have inserted. *)
Theorem handleKeyDown_enter_submits :
  forall (Owner : Type) (props : SearchBarProps Owner)
         (defaultAction : KeyboardEvent -> HTMLTextAreaElement -> HTMLTextAreaElement)
         (event : KeyboardEvent) (w : World Owner),
    key event = "Enter" ->
    shiftKey event = false ->
    count_onSearch (performed (handleKeyDown props event) w) = 1%nat
    /\ owner (exec (handleKeyDown props event) w) = onSearch props (owner w)
    /\ defaultPrevented (exec (handleKeyDown props event) w) = true
    /\ filter is_preventDefault (performed (handleKeyDown props event) w)
       = [CallPreventDefault]
    /\ textarea (dispatchKeyDown props defaultAction event w) = textarea w.
Proof.
  intros Owner props defaultAction event w Hk Hs.
  rewrite handleKeyDown_performed, Hk, Hs. simpl.
  rewrite (handleKeyDown_submit props event w Hk Hs). simpl.
  repeat split.
  unfold dispatchKeyDown.
  rewrite (handleKeyDown_submit props event _ Hk Hs). reflexivity.
Qed.

Lemma handleKeyDown_enter_submits_witness :
  let event := mkKeyboardEvent "Enter" false in
  let w := Sample.world "cats" "24px" in
  count_onSearch (performed (handleKeyDown (Sample.props "cats") event) w) = 1%nat
  /\ owner (exec (handleKeyDown (Sample.props "cats") event) w)
     = onSearch (Sample.props "cats") (owner w)
  /\ defaultPrevented (exec (handleKeyDown (Sample.props "cats") event) w) = true
  /\ filter is_preventDefault (performed (handleKeyDown (Sample.props "cats") event) w)
     = [CallPreventDefault]
  /\ textarea (dispatchKeyDown (Sample.props "cats") Sample.defaultAction event w)
     = textarea w.
Proof.
  exact (handleKeyDown_enter_submits Sample.owner_state (Sample.props "cats")
           Sample.defaultAction (mkKeyboardEvent "Enter" false)
           (Sample.world "cats" "24px") eq_refl eq_refl).
Defined.

(** C3.  A key-down event with key "Enter" and shift held makes
    handleKeyDown do nothing at all: no call of onSearch, no effect, the
    world is left as it was and the event is not cancelled, so the dispatch
    ends with the default action of the host applied to the textarea. *)
Theorem handleKeyDown_shift_enter_default :
  forall (Owner : Type) (props : SearchBarProps Owner)
         (defaultAction : KeyboardEvent -> HTMLTextAreaElement -> HTMLTextAreaElement)
         (event : KeyboardEvent) (w : World Owner),
    key event = "Enter" ->
    shiftKey event = true ->
    count_onSearch (performed (handleKeyDown props event) w) = 0%nat
    /\ performed (handleKeyDown props event) w = []
    /\ exec (handleKeyDown props event) w = w
    /\ defaultPrevented (dispatchKeyDown props defaultAction event w) = false
    /\ textarea (dispatchKeyDown props defaultAction event w)
       = defaultAction event (textarea w).
Proof.
  intros Owner props defaultAction event w Hk Hs.
  assert (Hc : ((key event =? "Enter")%string && negb (shiftKey event))%bool = false)
    by (rewrite Hs; apply andb_false_r).
  rewrite handleKeyDown_performed, Hc.
  rewrite (handleKeyDown_idle props event w Hc).
  unfold dispatchKeyDown.
  rewrite (handleKeyDown_idle props event _ Hc). simpl.
  repeat split.
Qed.

Lemma handleKeyDown_shift_enter_default_witness :
  let event := mkKeyboardEvent "Enter" true in
  let w := Sample.world "cats" "24px" in
  count_onSearch (performed (handleKeyDown (Sample.props "cats") event) w) = 0%nat
  /\ performed (handleKeyDown (Sample.props "cats") event) w = []
  /\ exec (handleKeyDown (Sample.props "cats") event) w = w
  /\ defaultPrevented
       (dispatchKeyDown (Sample.props "cats") Sample.defaultAction event w) = false
  /\ textarea (dispatchKeyDown (Sample.props "cats") Sample.defaultAction event w)
     = Sample.defaultAction event (textarea w).
Proof.
  exact (handleKeyDown_shift_enter_default Sample.owner_state (Sample.props "cats")
           Sample.defaultAction (mkKeyboardEvent "Enter" true)
           (Sample.world "cats" "24px") eq_refl eq_refl).
Defined.

(** On the sample host the default action of Shift+Enter is the line break
    the handler lets through. *)
Example shift_enter_breaks_line :
  value (textarea (dispatchKeyDown (Sample.props "cats") Sample.defaultAction
                     (mkKeyboardEvent "Enter" true) (Sample.world "cats" "24px")))
  = "cats" ++ Sample.newline.
Proof. reflexivity. Qed.

(** C8.  A key-down event whose key is not "Enter" makes handleKeyDown do
    nothing: no effect at all (so no call of onSearch, no write of the
    height, no preventDefault), the world is unchanged and the default
    action of the host goes ahead.  And for every key-down event whatever,
    handleKeyDown performs no operation on the input surface and leaves
    the textarea as it is: heights are written by handleChange only. *)
Theorem handleKeyDown_other_key_inert :
  forall (Owner : Type) (props : SearchBarProps Owner)
         (defaultAction : KeyboardEvent -> HTMLTextAreaElement -> HTMLTextAreaElement)
         (event : KeyboardEvent) (w : World Owner),
    key event <> "Enter" ->
    performed (handleKeyDown props event) w = []
    /\ exec (handleKeyDown props event) w = w
    /\ textarea (dispatchKeyDown props defaultAction event w)
       = defaultAction event (textarea w)
    /\ (forall (event' : KeyboardEvent) (w' : World Owner),
          surface_ops (performed (handleKeyDown props event') w') = []
          /\ textarea (exec (handleKeyDown props event') w') = textarea w').
Proof.
  intros Owner props defaultAction event w Hk.
  apply String.eqb_neq in Hk.
  assert (Hc : ((key event =? "Enter")%string && negb (shiftKey event))%bool = false)
    by (rewrite Hk; reflexivity).
  split; [apply performed_nothing, handleKeyDown_idle, Hc|].
  split; [apply handleKeyDown_idle, Hc|].
  split.
  - unfold dispatchKeyDown.
    rewrite (handleKeyDown_idle props event _ Hc). reflexivity.
  - intros event' w'. rewrite handleKeyDown_performed.
    destruct ((key event' =? "Enter")%string && negb (shiftKey event'))%bool eqn:Hc'.
    + apply andb_true_iff in Hc' as [Hk' Hs'].
      apply String.eqb_eq in Hk'. apply negb_true_iff in Hs'.
      rewrite (handleKeyDown_submit props event' w' Hk' Hs'). split; reflexivity.
    + rewrite (handleKeyDown_idle props event' w' Hc'). split; reflexivity.
Qed.

Lemma handleKeyDown_other_key_inert_witness :
  let event := mkKeyboardEvent "a" false in
  let w := Sample.world "cats" "24px" in
  performed (handleKeyDown (Sample.props "cats") event) w = []
  /\ exec (handleKeyDown (Sample.props "cats") event) w = w
  /\ textarea (dispatchKeyDown (Sample.props "cats") Sample.defaultAction event w)
     = Sample.defaultAction event (textarea w)
  /\ (forall (event' : KeyboardEvent) (w' : World Sample.owner_state),
        surface_ops (performed (handleKeyDown (Sample.props "cats") event') w') = []
        /\ textarea (exec (handleKeyDown (Sample.props "cats") event') w') = textarea w').
Proof.
  apply (handleKeyDown_other_key_inert Sample.owner_state (Sample.props "cats")
           Sample.defaultAction (mkKeyboardEvent "a" false)
           (Sample.world "cats" "24px")).
  intros H. discriminate H.
Defined.

(** C10.  Whether handleKeyDown calls onSearch is a function of the key
    and of the shift flag alone: two runs on the same event call it the
    same number of times whatever the props (so whatever the query), the
    owner and the textarea are, and that number is one for Enter without
    shift and zero otherwise.  In particular Enter without shift on an empty
    query and an empty textarea calls onSearch exactly once. *)
Theorem submit_decision_independent_of_query :
  forall (Owner : Type) (props1 props2 : SearchBarProps Owner)
         (event : KeyboardEvent) (w1 w2 : World Owner),
    count_onSearch (performed (handleKeyDown props1 event) w1)
    = count_onSearch (performed (handleKeyDown props2 event) w2)
    /\ count_onSearch (performed (handleKeyDown props1 event) w1)
       = (if ((key event =? "Enter")%string && negb (shiftKey event))%bool
          then 1%nat else 0%nat)
    /\ (forall (setQuery0 : string -> Owner -> Owner) (onSearch0 : Owner -> Owner)
               (o : Owner) (h : string) (dp : bool) (tr : list effect),
          count_onSearch
            (performed (handleKeyDown (mkProps "" setQuery0 onSearch0)
                          (mkKeyboardEvent "Enter" false))
                       (mkWorld o (mkTextarea "" h) dp tr)) = 1%nat).
Proof.
  intros Owner props1 props2 event w1 w2.
  repeat rewrite handleKeyDown_performed.
  split; [reflexivity|].
  split.
  - destruct ((key event =? "Enter")%string && negb (shiftKey event))%bool;
      reflexivity.
  - intros. rewrite handleKeyDown_performed. reflexivity.
Qed.

(** ** Content-change handling *)

(** C2.  A run of handleChange on a textarea whose content is [s] calls
    setQuery exactly once, inside the run, with [s] itself: the list of the
    arguments of its calls is [[s]], and the owner's state afterwards is
    its callback applied once to [s]. *)
Theorem handleChange_notifies_once :
  forall (Owner : Type) (props : SearchBarProps Owner) (scrollHeight : Layout)
         (s : string) (w : World Owner),
    let w0 := mkWorld (owner w) (mkTextarea s (style_height (textarea w)))
                (defaultPrevented w) (trace w) in
    setQuery_args (performed (handleChange props scrollHeight) w0) = [s]
    /\ length (filter is_setQuery (performed (handleChange props scrollHeight) w0))
       = 1%nat
    /\ owner (exec (handleChange props scrollHeight) w0) = setQuery props s (owner w).
Proof.
  intros Owner props scrollHeight s w w0.
  rewrite handleChange_performed, handleChange_exec.
  repeat split.
Qed.

(** C4.  The operations handleChange performs on the input surface are,
    in this order: the write of the height "24px", the measurement of the
    scroll height (taken on the element as that write left it), and the
    write of the measured height; the textarea ends with the measured
    height. *)
Theorem handleChange_reset_then_measure :
  forall (Owner : Type) (props : SearchBarProps Owner) (scrollHeight : Layout)
         (w : World Owner),
    let n := scrollHeight (mkTextarea (value (textarea w)) "24px") in
    surface_ops (performed (handleChange props scrollHeight) w)
    = [SetStyleHeight "24px"; ReadScrollHeight n; SetStyleHeight (px n)]
    /\ style_height (textarea (exec (handleChange props scrollHeight) w)) = px n.
Proof.
  intros Owner props scrollHeight w n.
  rewrite handleChange_performed, handleChange_exec.
  split; reflexivity.
Qed.

(** C5.  After a change of the content from [s_old] to [s_new] the height
    of the textarea is the one a change to [s_new] gives on any other
    element, in particular on one that never held another content: it is
    the height measured for [s_new] at the baseline, and nothing of the
    height that [s_old] had is left in it. *)
Theorem handleChange_shrink_correct :
  forall (Owner : Type) (props : SearchBarProps Owner) (scrollHeight : Layout)
         (s_old s_new : string) (w w_fresh : World Owner),
    let after_old := dispatchChange props scrollHeight s_old w in
    let after_new := dispatchChange props scrollHeight s_new after_old in
    style_height (textarea after_new)
    = style_height (textarea (dispatchChange props scrollHeight s_new w_fresh))
    /\ style_height (textarea after_new) = px (measured scrollHeight s_new).
Proof.
  intros Owner props scrollHeight s_old s_new w w_fresh after_old after_new.
  unfold after_new. repeat rewrite dispatchChange_exec.
  split; reflexivity.
Qed.

(** On the sample host: three lines take 72 units, and going back to one
    line gives the 24 units of a fresh one-line textarea. *)
Example shrink_three_lines_to_one :
  let three := "a" ++ Sample.newline ++ "b" ++ Sample.newline ++ "c" in
  let tall := dispatchChange (Sample.props "") Sample.layout three (Sample.world "" "") in
  style_height (textarea tall) = "72px"
  /\ style_height (textarea (dispatchChange (Sample.props three) Sample.layout "a" tall))
     = "24px"
  /\ style_height (textarea (dispatchChange (Sample.props "") Sample.layout "a"
                               (Sample.world "" "")))
     = "24px".
Proof. repeat split. Qed.

(** C9.  Two runs of handleChange in a row on the same content measure the
    same scroll height and leave the same height on the textarea. *)
Theorem handleChange_remeasure_deterministic :
  forall (Owner : Type) (props : SearchBarProps Owner) (scrollHeight : Layout)
         (s : string) (w : World Owner),
    let first := dispatchChange props scrollHeight s w in
    let second := dispatchChange props scrollHeight s first in
    measurements (effects_since first second) = measurements (effects_since w first)
    /\ style_height (textarea second) = style_height (textarea first).
Proof.
  intros Owner props scrollHeight s w first second.
  unfold second, first. repeat rewrite dispatchChange_exec.
  unfold effects_since. cbn [trace textarea style_height].
  rewrite !skipn_length_app. split; reflexivity.
Qed.

(** C6, as the code has it.  handleChange calls setQuery first and resizes
    afterwards: in the effects of a run the call of setQuery comes before
    every operation on the input surface, and it is the first effect. *)
Theorem handleChange_notify_precedes_resize :
  forall (Owner : Type) (props : SearchBarProps Owner) (scrollHeight : Layout)
         (w : World Owner),
    precedes is_setQuery is_surface_op
      (performed (handleChange props scrollHeight) w) = true
    /\ hd_error (performed (handleChange props scrollHeight) w)
       = Some (CallSetQuery (value (textarea w)))
    /\ surface_ops (performed (handleChange props scrollHeight) w) <> [].
Proof.
  intros Owner props scrollHeight w.
  rewrite handleChange_performed. simpl.
  repeat split. discriminate.
Qed.

(** C6, as the claim has it, fails: on the sample host, for the content
    "a", the resize does not come before the call of setQuery. *)
Lemma handleChange_resize_not_before_notify :
  precedes is_surface_op is_setQuery
    (performed (handleChange (Sample.props "") Sample.layout) (Sample.world "a" ""))
  = false
  /\ performed (handleChange (Sample.props "") Sample.layout) (Sample.world "a" "")
     = [CallSetQuery "a"; SetStyleHeight "24px"; ReadScrollHeight 24;
        SetStyleHeight "24px"].
Proof. split; reflexivity. Qed.

(** ** The component as a whole *)

(** C7.  The component is controlled by its owner.  It has no state of
    its own: what it displays is the query of its props; the handlers of
    its textarea are handleChange and handleKeyDown; handleChange does not
    assign the content of the textarea and passes the text to the owner
    through setQuery only; handleKeyDown does not touch the textarea and
    never calls setQuery.  So in a page, whatever the owner does with the
    requests: after every event of a session the textarea shows the query
    the owner supplies for the state it is in; after an input event that is
    the query the owner supplies once its setQuery has been applied to the
    reported content, and not that content as such; and over a session
    setQuery has been called with exactly the contents reported, in
    order. *)
Theorem SearchBar_controlled :
  forall (Owner : Type) (scrollHeight : Layout) (props : SearchBarProps Owner)
         (render_props : Owner -> SearchBarProps Owner)
         (event : KeyboardEvent) (w : World Owner)
         (s : string) (op : operation) (ops : list operation),
    displayed (SearchBar scrollHeight props) = [query props]
    /\ map ta_onChange (textareas (SearchBar scrollHeight props))
       = [handleChange props scrollHeight]
    /\ map ta_onKeyDown (textareas (SearchBar scrollHeight props))
       = [handleKeyDown props]
    /\ value (textarea (exec (handleChange props scrollHeight) w))
       = value (textarea w)
    /\ setQuery_args (performed (handleChange props scrollHeight) w)
       = [value (textarea w)]
    /\ textarea (exec (handleKeyDown props event) w) = textarea w
    /\ setQuery_args (performed (handleKeyDown props event) w) = []
    /\ (let w' := session scrollHeight render_props (op :: ops) w in
        value (textarea w') = query (render_props (owner w')))
    /\ value (textarea (cycle scrollHeight render_props (Input s) w))
       = query (render_props (setQuery (render_props (owner w)) s (owner w)))
    /\ setQuery_args
         (effects_since w (session scrollHeight render_props (op :: ops) w))
       = contents (op :: ops).
Proof.
  intros Owner scrollHeight props render_props event w s op ops.
  rewrite handleChange_performed, handleChange_exec, handleKeyDown_performed.
  destruct (session_requests scrollHeight render_props (op :: ops) w)
    as (E & Ht & Ha).
  unfold effects_since. rewrite Ht, skipn_length_app, Ha.
  repeat split.
  - destruct ((key event =? "Enter")%string && negb (shiftKey event))%bool eqn:Hc.
    + apply andb_true_iff in Hc as [Hk Hs].
      apply String.eqb_eq in Hk. apply negb_true_iff in Hs.
      rewrite (handleKeyDown_submit props event w Hk Hs). reflexivity.
    + rewrite (handleKeyDown_idle props event w Hc). reflexivity.
  - destruct ((key event =? "Enter")%string && negb (shiftKey event))%bool;
      reflexivity.
  - simpl session. apply session_shows_query. rewrite cycle_exec.
    destruct op as [s'|event']; [reflexivity|].
    simpl. destruct (submits event'); reflexivity.
Qed.

(** A session on the sample host with an owner that adopts the text: typing
    "cats", Shift+Enter (let through; the line break comes as the next
    input event), typing "dogs", then Enter.  The owner ends with the
    two-line query and one search. *)
Example session_cats_dogs :
  let cats_nl := "cats" ++ Sample.newline in
  let cats_dogs := cats_nl ++ "dogs" in
  let w := session Sample.layout Sample.adopting
             [ Input "cats";
               KeyDown (mkKeyboardEvent "Enter" true);
               Input cats_nl;
               Input cats_dogs;
               KeyDown (mkKeyboardEvent "Enter" false) ]
             (Sample.world "" "") in
  owner w = (cats_dogs, 1%nat)
  /\ setQuery_args (trace w) = ["cats"; cats_nl; cats_dogs]
  /\ count_onSearch (trace w) = 1%nat
  /\ textarea w = mkTextarea cats_dogs "48px".
Proof. repeat split. Qed.

(** With an owner that ignores setQuery the textarea goes back to the
    query after every input: the typed text is requested, not kept.  The
    height is the one measured while the typed text was in the textarea. *)
Example session_deaf_owner :
  let three := "a" ++ Sample.newline ++ "b" ++ Sample.newline ++ "c" in
  let w := session Sample.layout Sample.deaf [Input "cats"; Input three]
             (Sample.world "" "") in
  setQuery_args (trace w) = ["cats"; three]
  /\ owner w = (""%string, 0%nat)
  /\ textarea w = mkTextarea "" "72px".
Proof. repeat split. Qed.

(** * Further properties of the handlers *)

(** ** Runs of events *)

Lemma run_effects {Owner : Type} (scrollHeight : Layout)
    (steps : list (SearchBarProps Owner * operation)) :
  forall w : World Owner,
  exists E : list effect,
    trace (run scrollHeight steps w) = (trace w ++ E)%list
    /\ filter is_callback E = calls_of steps
    /\ count_onSearch E = submissions steps
    /\ cancel_follows_search E = true.
Proof.
  induction steps as [|[props op] steps IH]; intros w.
  - exists []. rewrite app_nil_r. repeat split.
  - simpl run.
    destruct (IH (step scrollHeight props op w)) as (E & Ht & Hc & Hn & Hp).
    rewrite Ht, step_exec. clear Ht.
    destruct op as [s|event]; [|cbn [calls_of submissions]; destruct (submits event)].
    + eexists. cbn [trace]. rewrite <- app_assoc. split; [reflexivity|].
      simpl. rewrite Hc. repeat split; assumption.
    + eexists. cbn [trace]. rewrite <- app_assoc. split; [reflexivity|].
      simpl. rewrite Hc. unfold count_onSearch in *. simpl. rewrite Hn.
      repeat split; assumption.
    + exists E. cbn [trace]. repeat split; assumption.
Qed.

Lemma run_owner {Owner : Type} (scrollHeight : Layout)
    (steps : list (SearchBarProps Owner * operation)) :
  forall w : World Owner,
    owner (run scrollHeight steps w) = owner_after steps (owner w).
Proof.
  induction steps as [|[props op] steps IH]; intros w; [reflexivity|].
  simpl run. rewrite IH, step_exec.
  destruct op as [s|event]; simpl; [reflexivity|].
  destruct (submits event); reflexivity.
Qed.

(** X1.  In any run of events the component calls the owner's callbacks in
    the order of the events and nothing more: setQuery with the content of
    each input event, onSearch once for each Enter without shift.  So an
    input event never starts a search, and the searches started are as many
    as the Enter key-downs without shift. *)
Theorem run_callbacks_in_event_order :
  forall (Owner : Type) (scrollHeight : Layout)
         (steps : list (SearchBarProps Owner * operation)) (w : World Owner),
    filter is_callback (effects_since w (run scrollHeight steps w)) = calls_of steps
    /\ count_onSearch (effects_since w (run scrollHeight steps w)) = submissions steps.
Proof.
  intros Owner scrollHeight steps w.
  destruct (run_effects scrollHeight steps w) as (E & Ht & Hc & Hn & _).
  unfold effects_since. rewrite Ht, skipn_length_app. split; assumption.
Qed.

(** X2.  The owner's state after a run is its callbacks applied in the
    order of the events.  It does not depend on the layout engine, nor on
    the textarea, the cancellation flag or the trace the run started
    from. *)
Theorem run_owner_independent_of_layout :
  forall (Owner : Type) (layout1 layout2 : Layout)
         (steps : list (SearchBarProps Owner * operation)) (o : Owner)
         (ta1 ta2 : HTMLTextAreaElement) (dp1 dp2 : bool) (tr1 tr2 : list effect),
    owner (run layout1 steps (mkWorld o ta1 dp1 tr1)) = owner_after steps o
    /\ owner (run layout1 steps (mkWorld o ta1 dp1 tr1))
       = owner (run layout2 steps (mkWorld o ta2 dp2 tr2)).
Proof.
  intros. rewrite !run_owner. split; reflexivity.
Qed.

(** X3.  After a session the textarea shows the query the owner supplies
    and has the height measured for the content of the last input event,
    taken at the baseline while that content was in the textarea: the
    height follows what was typed last, also when the owner supplies another
    text, whatever key-down events came in between or after and whatever the
    height was before.  A session without input events leaves the height as
    it was. *)
Theorem session_textarea_after :
  forall (Owner : Type) (scrollHeight : Layout)
         (render_props : Owner -> SearchBarProps Owner)
         (op : operation) (ops : list operation) (w : World Owner),
    let w' := session scrollHeight render_props (op :: ops) w in
    textarea w' =
    mkTextarea (query (render_props (owner w')))
      match contents (op :: ops) with
      | [] => style_height (textarea w)
      | s0 :: rest => px (measured scrollHeight (last rest s0))
      end.
Proof.
  intros Owner scrollHeight render_props op ops w w'.
  assert (Hv : value (textarea w') = query (render_props (owner w'))).
  { unfold w'. simpl session. apply session_shows_query. rewrite cycle_exec.
    destruct op as [s|event]; [reflexivity|].
    simpl. destruct (submits event); reflexivity. }
  assert (Hh := session_height scrollHeight render_props (op :: ops) w).
  fold w' in Hh. rewrite <- Hv, <- Hh.
  destruct (textarea w'); reflexivity.
Qed.

(** X4.  In the effects of any run every call of onSearch is followed at
    once by the call of preventDefault, and preventDefault is called
    nowhere else: the default action of a key is cancelled exactly when the
    key started a search, and input events cancel nothing. *)
Theorem run_cancel_follows_search :
  forall (Owner : Type) (scrollHeight : Layout)
         (steps : list (SearchBarProps Owner * operation)) (w : World Owner),
    cancel_follows_search (effects_since w (run scrollHeight steps w)) = true
    /\ length (filter is_preventDefault (effects_since w (run scrollHeight steps w)))
       = count_onSearch (effects_since w (run scrollHeight steps w)).
Proof.
  intros Owner scrollHeight steps w.
  destruct (run_effects scrollHeight steps w) as (E & Ht & _ & _ & Hp).
  unfold effects_since. rewrite Ht, skipn_length_app. split; [exact Hp|].
  clear Ht. unfold count_onSearch.
  assert (G : forall n (tr : list effect), (length tr <= n)%nat ->
            cancel_follows_search tr = true ->
            length (filter is_preventDefault tr) = length (filter is_onSearch tr)).
  { induction n as [|n IHn]; intros tr Hl Hc.
    - destruct tr; [reflexivity | simpl in Hl; inversion Hl].
    - destruct tr as [|e tr]; [reflexivity|].
      simpl in Hl. apply le_S_n in Hl.
      destruct e; simpl in Hc |- *; try (apply IHn; assumption).
      + destruct tr as [|e' tr]; [discriminate|].
        destruct e'; try discriminate. simpl. f_equal.
        apply IHn; [|exact Hc]. simpl in Hl.
        apply Nat.le_trans with (S (length tr)); [apply Nat.le_succ_diag_r | exact Hl].
      + discriminate. }
  apply (G (length E) E (Nat.le_refl _) Hp).
Qed.

(** ** The height written for a measurement *)

Lemma length_append (s t : string) :
  String.length (s ++ t) = (String.length s + String.length t)%nat.
Proof.
  induction s as [|c s IH]; simpl; [reflexivity | rewrite IH; reflexivity].
Qed.

Lemma append_cancel_r (t s1 s2 : string) : s1 ++ t = s2 ++ t -> s1 = s2.
Proof.
  revert s2. induction s1 as [|c s1 IH]; intros [|c2 s2] H.
  - reflexivity.
  - apply (f_equal String.length) in H. simpl in H.
    rewrite length_append in H. lia.
  - apply (f_equal String.length) in H. simpl in H.
    rewrite length_append in H. lia.
  - simpl in H. injection H as Hc Hs. rewrite Hc, (IH s2 Hs). reflexivity.
Qed.

Lemma to_int_not_nil (n : Z) :
  Z.to_int n <> Decimal.Pos Decimal.Nil /\ Z.to_int n <> Decimal.Neg Decimal.Nil.
Proof.
  destruct n as [|p|p]; simpl; split; try discriminate;
    intros H; injection H as H;
    exact (DecimalPos.Unsigned.to_uint_nonnil p H).
Qed.

Lemma px_inj (n m : Z) : px n = px m -> n = m.
Proof.
  unfold px. intros H. apply append_cancel_r in H.
  apply DecimalZ.to_int_inj.
  destruct (to_int_not_nil n) as [Hn1 Hn2].
  destruct (to_int_not_nil m) as [Hm1 Hm2].
  assert (E : NilZero.int_of_string (NilZero.string_of_int (Z.to_int n))
            = NilZero.int_of_string (NilZero.string_of_int (Z.to_int m)))
    by (rewrite H; reflexivity).
  rewrite (NilZero.isi _ Hn1 Hn2), (NilZero.isi _ Hm1 Hm2) in E.
  injection E as E. exact E.
Qed.

(** X5.  The height handleChange writes for a measurement loses nothing
    of it: two changes leave the same height on the textarea exactly when
    the scroll heights measured for their contents are equal, whatever the
    two textareas were before. *)
Theorem handleChange_height_faithful :
  forall (Owner : Type) (props1 props2 : SearchBarProps Owner)
         (scrollHeight : Layout) (s1 s2 : string) (w1 w2 : World Owner),
    style_height (textarea (dispatchChange props1 scrollHeight s1 w1))
    = style_height (textarea (dispatchChange props2 scrollHeight s2 w2))
    <-> measured scrollHeight s1 = measured scrollHeight s2.
Proof.
  intros Owner props1 props2 scrollHeight s1 s2 w1 w2.
  rewrite !dispatchChange_exec. cbn [textarea style_height].
  split; [apply px_inj | intros E; rewrite E; reflexivity].
Qed.
